(** * SecureRedact-AI: the privacy-audit orchestration and the PDF utilities

    A shallow embedding of [src/api/api_services/geminiService.py] and
    [src/api/api_services/pdfUtils.py].

    Python values are embedded as an inductive type, Python strings as
    lists of code points, and the two effects the code has (writing a line
    to standard output, calling an external library) are threaded through a
    small state-and-exception monad.  The external collaborators (the
    Gemini client, [json.loads], [pypdf], and the stream [print] writes
    to) are section variables: nothing is assumed about them beyond what
    a theorem states as a hypothesis. *)

From Stdlib Require Import String Ascii List NArith ZArith Bool.
From Stdlib Require Import Decimal DecimalString Floats.
From Stdlib.Strings Require Import Byte.
Import ListNotations.

Set Implicit Arguments.
Set Warnings "-register-all".
Set Warnings "-abstract-large-number".
Set Warnings "-inexact-float".
Set Warnings "-notation-for-abbreviation".
Local Open Scope string_scope.
Local Open Scope list_scope.

(** ** Python data *)

Module Py.

(** A [str] is a sequence of Unicode code points; slicing, [len] and
    concatenation work on code points, not on bytes. *)
Definition codepoint := N.
Definition pystr := list codepoint.

(** String literals of the source, all of them ASCII. *)
Definition py (s : string) : pystr :=
  map N_of_ascii (list_ascii_of_string s).

Definition codepoint_eqb : codepoint -> codepoint -> bool := N.eqb.

Fixpoint str_eqb (a b : pystr) : bool :=
  match a, b with
  | [], [] => true
  | x :: a', y :: b' => codepoint_eqb x y && str_eqb a' b'
  | _, _ => false
  end.

(** [needle in haystack] on strings. *)
Fixpoint startswith (hay needle : pystr) : bool :=
  match needle, hay with
  | [], _ => true
  | n :: needle', h :: hay' => codepoint_eqb n h && startswith hay' needle'
  | _ :: _, [] => false
  end.

Fixpoint str_in (needle hay : pystr) : bool :=
  startswith hay needle ||
  match hay with
  | [] => false
  | _ :: hay' => str_in needle hay'
  end.

(** [str(n)] for a non-negative integer. *)
Definition str_of_nat (n : nat) : pystr :=
  py (NilZero.string_of_uint (Nat.to_uint n)).

(** The values [json.loads] produces, which are also the values a
    [TypedDict] holds at run time.  A [dict] keeps its insertion order. *)
Inductive pyvalue : Type :=
| PyNone
| PyBool (b : bool)
| PyInt (z : Z)
| PyFloat (f : float)
| PyStr (s : pystr)
| PyList (items : list pyvalue)
| PyDict (entries : list (pystr * pyvalue)).

(** Truth value of an object, as [if x:] and [x or y] test it. *)
Definition truthy (v : pyvalue) : bool :=
  match v with
  | PyNone => false
  | PyBool b => b
  | PyInt z => negb (Z.eqb z 0)
  | PyFloat f => negb (PrimFloat.eqb f 0%float)
  | PyStr s => match s with [] => false | _ :: _ => true end
  | PyList l => match l with [] => false | _ :: _ => true end
  | PyDict d => match d with [] => false | _ :: _ => true end
  end.

(** [d[k]] / [k in d] on a dict; [None] on anything else. *)
Fixpoint assoc (k : pystr) (d : list (pystr * pyvalue)) : option pyvalue :=
  match d with
  | [] => None
  | (k', v) :: d' => if str_eqb k k' then Some v else assoc k d'
  end.

Definition dict_get (k : pystr) (v : pyvalue) : option pyvalue :=
  match v with
  | PyDict d => assoc k d
  | _ => None
  end.

Definition has_key (k : pystr) (v : pyvalue) : bool :=
  match dict_get k v with Some _ => true | None => false end.

(** [s or default] where [s] is an [Optional[str]]. *)
Definition str_or (s : option pystr) (default : pystr) : pystr :=
  match s with
  | Some (c :: s') => c :: s'
  | Some [] => default
  | None => default
  end.

(** Instances of [Exception], which is what the handlers of both modules
    catch ([except Exception]): the class and what [str(e)] gives. *)
Inductive exc_class : Type :=
| ValueError
| IndexError
| JSONDecodeError
| ConnectionError
| TimeoutError
| APIError
| PdfReadError
| OtherException (name : pystr).

Record pyexception : Type := Exc { exc_type : exc_class; exc_str : pystr }.

(** How a call ends. *)
Inductive result (A : Type) : Type :=
| Return (a : A)
| Raise (e : pyexception).
Arguments Return {A} a.
Arguments Raise {A} e.

(** The world a call runs in: the lines printed so far (oldest first) and
    the state of whatever external service the module talks to. *)
Record world (E : Type) : Type := World { stdout : list pystr; ext : E }.

(** State and exception monad.  The world survives a raised exception. *)
Definition M (E A : Type) : Type := world E -> result A * world E.

Definition ret {E A} (a : A) : M E A := fun w => (Return a, w).

Definition raise {E A} (e : pyexception) : M E A := fun w => (Raise e, w).

Definition bind {E A B} (m : M E A) (k : A -> M E B) : M E B :=
  fun w =>
    match m w with
    | (Return a, w') => k a w'
    | (Raise e, w') => (Raise e, w')
    end.

(** [try: body  except Exception as error: handler(error)] *)
Definition try_except {E A} (body : M E A) (handler : pyexception -> M E A) : M E A :=
  fun w =>
    match body w with
    | (Return a, w') => (Return a, w')
    | (Raise e, w') => handler e w'
    end.

(** The world after one more printed line. *)
Definition logged {E} (w : world E) (line : pystr) : world E :=
  World (stdout w ++ [line]) (ext w).

(** [print(line)].  [stdout_write] is what [sys.stdout] does with a line:
    it takes it, or raises (a stream that cannot encode the text raises
    [UnicodeEncodeError], a closed one [ValueError], a broken one
    [OSError]).  A line that is refused is not printed. *)
Definition print {E} (stdout_write : pystr -> result unit) (line : pystr) : M E unit :=
  fun w =>
    match stdout_write line with
    | Return _ => (Return tt, logged w line)
    | Raise e => (Raise e, w)
    end.

(** A library call that does not touch the world. *)
Definition lift {E A} (r : result A) : M E A := fun w => (r, w).

(** [for x in xs: acc = body(x, acc)], the loop variable [acc] standing for
    the local the loop body updates. *)
Fixpoint for_each {E A S} (xs : list A) (body : A -> S -> M E S) (acc : S) : M E S :=
  match xs with
  | [] => ret acc
  | x :: xs' => bind (body x acc) (for_each xs' body)
  end.

(** [range(n)] *)
Definition range (n : nat) : list nat := seq 0 n.

End Py.

Import Py.

Declare Scope py_scope.
Delimit Scope py_scope with py.
Notation "x <- m ;; k" := (bind m (fun x => k))
  (at level 100, m at next level, right associativity) : py_scope.
Notation "m ;;; k" := (bind m (fun _ => k))
  (at level 100, right associativity) : py_scope.


(** ** geminiService.py *)

Module geminiService.

(** *** Type definitions

    [ValidationResult], [LeakItem] and [AccuracyMetrics] are [TypedDict]s:
    plain dicts at run time.  What they require of a value is what the
    response schema below requires. *)

(** The schema language of the provider, as far as [response_schema] uses it. *)
Inductive schema : Type :=
| NUMBER
| STRING
| ARRAY (items : schema)
| OBJECT (properties : list (pystr * schema)) (required : list pystr).

(** [types.GenerateContentConfig(...)]; an argument that is not passed is [None]. *)
Record GenerateContentConfig : Type := {
  system_instruction : option pystr;
  temperature : option float;
  response_mime_type : option pystr;
  response_schema : option schema
}.

(** The arguments of [client.models.generate_content]. *)
Record request : Type := {
  model : pystr;
  contents : pystr;
  config : GenerateContentConfig
}.

(** What the code reads of the SDK's response object: [response.text] and
    [response.parsed] ([PyNone] when the SDK parsed nothing). *)
Record response : Type := {
  text : option pystr;
  parsed : pyvalue
}.

(** *** Configuration and constants *)

Definition nl : string := String "010"%char EmptyString.
Definition dq : string := String "034"%char EmptyString.
Definition join_lines (ls : list string) : string := String.concat nl ls.

Definition SUMMARY_SYSTEM_INSTRUCTION : pystr :=
  py (join_lines
    [ EmptyString;
      "You are a professional assistant. ";
      "You are receiving text that has been locally sanitized (PII redacted).";
      "Your job is to provide a concise, professional summary of the content.";
      EmptyString;
      "Input Context:";
      "- Text contains [REDACTED_TYPE] placeholders.";
      "- Focus on the non-sensitive business logic, events, or main topics.";
      "- The document might be quite long; provide a structured overview.";
      EmptyString ]).

Definition VALIDATION_SYSTEM_INSTRUCTION : pystr :=
  py (join_lines
    [ EmptyString;
      "You are a Senior Data Privacy Auditor. ";
      "Your task is to compare a REDACTED version of a document with its ORIGINAL version to identify any missed PII (Personally Identifiable Information).";
      EmptyString;
      "LEAK CRITERIA:";
      "- Any real names of people, specific addresses, phone numbers, or clear unique identifiers (like SSNs or specific SAP Vendor IDs) that were NOT replaced by a [REDACTED_...] tag.";
      ("- Partial leaks (e.g., " ++ dq ++ "Mr. [REDACTED_NAME] lives at 123 Main St" ++ dq ++ " where the address was missed).")%string;
      EmptyString;
      "Return a JSON object:";
      "{";
      ("  " ++ dq ++ "score" ++ dq ++ ": number (0-100, where 100 means zero leaks),")%string;
      ("  " ++ dq ++ "leaks" ++ dq ++ ": [")%string;
      ("    { " ++ dq ++ "item" ++ dq ++ ": " ++ dq ++ "string" ++ dq ++ ", " ++ dq ++ "type" ++ dq ++ ": " ++ dq ++ "string" ++ dq ++ ", " ++ dq ++ "context" ++ dq ++ ": " ++ dq ++ "string" ++ dq ++ ", " ++ dq ++ "severity" ++ dq ++ ": " ++ dq ++ "Critical" ++ dq ++ " | " ++ dq ++ "Warning" ++ dq ++ " }")%string;
      "  ],";
      ("  " ++ dq ++ "summary" ++ dq ++ ": " ++ dq ++ "string describing the audit result" ++ dq ++ ",")%string;
      ("  " ++ dq ++ "accuracy_metrics" ++ dq ++ ": { " ++ dq ++ "precision" ++ dq ++ ": number, " ++ dq ++ "recall" ++ dq ++ ": number }")%string;
      "}";
      EmptyString ]).

(** The schema dict built inside [perform_privacy_validation]. *)
Definition leak_item_schema : schema :=
  OBJECT
    [ (py "item", STRING);
      (py "type", STRING);
      (py "context", STRING);
      (py "severity", STRING) ]
    [ py "item"; py "type"; py "context"; py "severity" ].

Definition accuracy_metrics_schema : schema :=
  OBJECT
    [ (py "precision", NUMBER);
      (py "recall", NUMBER) ]
    [ py "precision"; py "recall" ].

Definition validation_response_schema : schema :=
  OBJECT
    [ (py "score", NUMBER);
      (py "summary", STRING);
      (py "leaks", ARRAY leak_item_schema);
      (py "accuracy_metrics", accuracy_metrics_schema) ]
    [ py "score"; py "summary"; py "leaks"; py "accuracy_metrics" ].

(** The dict the [except] branch of [perform_privacy_validation] returns. *)
Definition fallback_result : pyvalue :=
  PyDict
    [ (py "score", PyInt 100);
      (py "leaks", PyList []);
      (py "summary", PyStr (py "Audit service encountered an error. Manual review suggested."));
      (py "accuracy_metrics",
       PyDict [ (py "precision", PyFloat 1.0%float); (py "recall", PyFloat 1.0%float) ]) ].

(** The three literal pieces of the audit prompt: the f-string before,
    between and after the two samples, with the indentation and the line
    breaks it has in the source. *)
Definition indent8 : string := "        ".

Definition prompt_head : pystr :=
  py (join_lines [ EmptyString; indent8 ++ "ORIGINAL TEXT SAMPLE:"; indent8 ])%string.

Definition prompt_middle : pystr :=
  py (join_lines [ EmptyString; EmptyString; indent8 ++ "SANITIZED TEXT SAMPLE:"; indent8 ])%string.

Definition prompt_tail : pystr :=
  py (join_lines
        [ EmptyString;
          indent8;
          indent8 ++ "Audit the SANITIZED sample against the ORIGINAL sample.";
          indent8 ])%string.

(** *** The module-level client

    [client.models.generate_content] is a call to a remote service: given
    a request and the state the service is in, it returns a response or
    raises, and leaves the service in a new state.  The world also records
    every request sent, in order. *)
Section Client.

(** [sys.stdout], as [print] finds it. *)
Variable stdout_write : pystr -> result unit.

Variable service_state : Type.
Variable generate_content :
  request -> service_state -> result response * service_state.

(** [json.loads] of the standard library. *)
Variable json_loads : pystr -> result pyvalue.

Record client_state : Type := {
  sent : list request;
  service : service_state
}.

Definition client_models_generate_content (req : request) : M client_state response :=
  fun w =>
    let (r, s') := generate_content req (service (ext w)) in
    (r, World (stdout w) {| sent := sent (ext w) ++ [req]; service := s' |}).

(** *** Functions *)

Local Open Scope py_scope.

Definition summary_request (sanitized_text : pystr) : request :=
  {| model := py "gemini-2.0-flash";
     contents := sanitized_text;
     config := {| system_instruction := Some SUMMARY_SYSTEM_INSTRUCTION;
                  temperature := Some 0.3%float;
                  response_mime_type := None;
                  response_schema := None |} |}.

Definition generate_summary_try (sanitized_text : pystr) : M client_state pystr :=
  response <- client_models_generate_content (summary_request sanitized_text) ;;
  ret (str_or (text response) (py "No summary generated.")).

Definition generate_summary_except (error : pyexception) : M client_state pystr :=
  print stdout_write (py "Error during Gemini summarization: " ++ exc_str error) ;;;
  raise error.

Definition generate_summary (sanitized_text : pystr) : M client_state pystr :=
  try_except (generate_summary_try sanitized_text) generate_summary_except.

Definition audit_prompt (original_sample sanitized_sample : pystr) : pystr :=
  prompt_head ++ original_sample ++ prompt_middle ++ sanitized_sample ++ prompt_tail.

Definition audit_request (prompt : pystr) : request :=
  {| model := py "gemini-2.0-pro-exp-02-05";
     contents := prompt;
     config := {| system_instruction := Some VALIDATION_SYSTEM_INSTRUCTION;
                  temperature := None;
                  response_mime_type := Some (py "application/json");
                  response_schema := Some validation_response_schema |} |}.

Definition perform_privacy_validation_try
    (original_text sanitized_text : pystr) : M client_state pyvalue :=
  let original_sample := firstn 20000 original_text in
  let sanitized_sample := firstn 20000 sanitized_text in
  let prompt := audit_prompt original_sample sanitized_sample in
  response <- client_models_generate_content (audit_request prompt) ;;
  if truthy (parsed response) then
    ret (parsed response)
  else
    lift (json_loads (str_or (text response) (py "{}"))).

Definition perform_privacy_validation_except (error : pyexception) : M client_state pyvalue :=
  print stdout_write (py "Privacy validation failed: " ++ exc_str error) ;;;
  ret fallback_result.

Definition perform_privacy_validation
    (original_text sanitized_text : pystr) : M client_state pyvalue :=
  try_except (perform_privacy_validation_try original_text sanitized_text)
             perform_privacy_validation_except.

End Client.

End geminiService.

(** ** pdfUtils.py *)

Module pdfUtils.

Definition NL : pystr := py geminiService.nl.

Section Pypdf.

(** [sys.stdout], as [print] finds it. *)
Variable stdout_write : pystr -> result unit.

(** What the code uses of [pypdf]: opening a reader on a byte stream,
    [len(reader.pages)], [reader.pages[i]] and [page.extract_text()].
    Each of them may raise. *)
Variable reader_t : Type.
Variable page_t : Type.
Variable PdfReader : list byte -> result reader_t.
Variable pages_len : reader_t -> result nat.
Variable pages_getitem : reader_t -> nat -> result page_t.
Variable extract_text : page_t -> result (option pystr).

Local Open Scope py_scope.

(** The f-string appended for page [i] (0-based). *)
Definition page_segment (i : nat) (page_text : pystr) : pystr :=
  py "--- Page " ++ str_of_nat (i + 1) ++ py " ---" ++ NL ++ page_text ++ NL ++ NL.

Definition extract_page (reader : reader_t) (i : nat) (full_text : list pystr)
  : M unit (list pystr) :=
  page <- lift (pages_getitem reader i) ;;
  extracted <- lift (extract_text page) ;;
  let page_text := str_or extracted [] in
  ret (full_text ++ [page_segment i page_text]).

Definition extract_text_from_pdf_try (file_bytes : list byte) : M unit pystr :=
  reader <- lift (PdfReader file_bytes) ;;
  let full_text := [] in
  num_pages <- lift (pages_len reader) ;;
  full_text <- for_each (range num_pages) (extract_page reader) full_text ;;
  ret (concat full_text).

Definition extraction_failed : pyexception :=
  Exc ValueError
      (py "Failed to extract text from PDF file. Please try a text or JSON file if this persists.").

Definition extract_text_from_pdf_except (e : pyexception) : M unit pystr :=
  print stdout_write (py "Error extracting text from PDF: " ++ exc_str e) ;;;
  raise extraction_failed.

Definition extract_text_from_pdf (file_bytes : list byte) : M unit pystr :=
  try_except (extract_text_from_pdf_try file_bytes) extract_text_from_pdf_except.

End Pypdf.

(** The format the interface description gives, stated on the texts of
    the pages: one segment per page, in page order, headed by the 1-based
    page number. *)
Definition page_header (n : nat) : pystr :=
  py "--- Page " ++ str_of_nat n ++ py " ---".

Fixpoint pages_joined_from (n : nat) (texts : list pystr) : pystr :=
  match texts with
  | [] => []
  | t :: texts' =>
      (page_header n ++ NL ++ t ++ NL ++ NL) ++ pages_joined_from (S n) texts'
  end.

Definition pages_joined (texts : list pystr) : pystr := pages_joined_from 1 texts.

(** The segments the loop appends for pages [i], [i + 1], ... *)
Fixpoint segments_from (i : nat) (texts : list pystr) : list pystr :=
  match texts with
  | [] => []
  | t :: texts' => page_segment i t :: segments_from (S i) texts'
  end.

End pdfUtils.

(** ** What the contract of the audit speaks about *)

Module Contract.

Import geminiService.

(** A value satisfies a schema: the type matches, every required property
    of an object is present, and every declared property that is present
    satisfies its own schema. *)
Fixpoint conforms (sc : schema) (v : pyvalue) {struct sc} : bool :=
  match sc with
  | NUMBER => match v with PyInt _ | PyFloat _ => true | _ => false end
  | STRING => match v with PyStr _ => true | _ => false end
  | ARRAY items =>
      match v with
      | PyList l => forallb (conforms items) l
      | _ => false
      end
  | OBJECT properties required =>
      match v with
      | PyDict d =>
          forallb (fun k => match assoc k d with Some _ => true | None => false end)
                  required
          && (fix properties_ok (ps : list (pystr * schema)) : bool :=
                match ps with
                | [] => true
                | (k, s) :: ps' =>
                    match assoc k d with
                    | Some x => conforms s x
                    | None => true
                    end && properties_ok ps'
                end) properties
      | _ => false
      end
  end.

(** A [LeakItem] with its four fields present. *)
Definition leak_populated (leak : pyvalue) : bool :=
  has_key (py "item") leak && has_key (py "type") leak
  && has_key (py "context") leak && has_key (py "severity") leak.

(** A [ValidationResult] with its four top-level fields present and every
    element of [leaks] fully populated. *)
Definition fully_populated (v : pyvalue) : bool :=
  has_key (py "score") v && has_key (py "leaks") v
  && has_key (py "summary") v && has_key (py "accuracy_metrics") v
  && match dict_get (py "leaks") v with
     | Some (PyList leaks) => forallb leak_populated leaks
     | _ => false
     end.

(** A provider whose answer to a request does not depend on the state
    the service is in. *)
Definition deterministic {S : Type}
    (generate_content : request -> S -> result response * S) : Prop :=
  forall req s1 s2, fst (generate_content req s1) = fst (generate_content req s2).

(** [response.text] is empty or absent. *)
Definition empty_body (t : option pystr) : bool :=
  match t with
  | None => true
  | Some [] => true
  | Some (_ :: _) => false
  end.

(** What the [except] branch of the audit makes of an error: the
    fallback once the error line is printed, the exception of [print]
    when it is not. *)
Definition absorbed (stdout_write : pystr -> result unit) (e : pyexception)
  : result pyvalue :=
  match stdout_write (py "Privacy validation failed: " ++ exc_str e) with
  | Return _ => Return fallback_result
  | Raise e' => Raise e'
  end.

(** What one [print] adds to standard output: the line, or nothing when
    the stream refuses it. *)
Definition printed (stdout_write : pystr -> result unit) (line : pystr) : list pystr :=
  match stdout_write line with
  | Return _ => [line]
  | Raise _ => []
  end.

(** The request the audit sends for a pair of texts. *)
Definition audit_request_for (original_text sanitized_text : pystr) : request :=
  audit_request (audit_prompt (firstn 20000 original_text) (firstn 20000 sanitized_text)).

(** The world after one more provider call. *)
Definition after_call {S} (w : world (client_state S)) (req : request) (s' : S)
  : world (client_state S) :=
  World (stdout w) {| sent := sent (ext w) ++ [req]; service := s' |}.

End Contract.

(** ** Test doubles

    Concrete collaborators, used to run the functions on concrete inputs. *)

Module Mock.

Import geminiService.

(** A provider that gives the same scripted outcome to every request and
    counts the calls it served. *)
Definition scripted (outcome : result response) : request -> nat -> result response * nat :=
  fun _ calls => (outcome, S calls).

(** A provider that times out on its first call and answers afterwards. *)
Definition flaky (answer : response) : request -> nat -> result response * nat :=
  fun _ calls =>
    match calls with
    | O => (Raise (Exc TimeoutError (py "timed out")), S calls)
    | S _ => (Return answer, S calls)
    end.

(** A decoder that knows the empty object and rejects everything else;
    it agrees with [json.loads] on every document it is run on below. *)
Definition json_loads (s : pystr) : result pyvalue :=
  if str_eqb s (py "{}") then Return (PyDict [])
  else Raise (Exc JSONDecodeError (py "Expecting value: line 1 column 1 (char 0)")).

(** A standard output that takes every line, and one that was closed. *)
Definition stdout_write (line : pystr) : result unit := Return tt.

Definition closed_stdout (line : pystr) : result unit :=
  Raise (Exc ValueError (py "I/O operation on closed file.")).

Definition fresh : world (client_state nat) :=
  World [] {| sent := []; service := 0 |}.

(** The audit result of the address-leak scenario. *)
Definition address_leak_result : pyvalue :=
  PyDict
    [ (py "score", PyInt 60);
      (py "leaks",
       PyList
         [ PyDict
             [ (py "item", PyStr (py "123 Main St"));
               (py "type", PyStr (py "address"));
               (py "context", PyStr (py "..."));
               (py "severity", PyStr (py "Critical")) ] ]);
      (py "summary", PyStr (py "..."));
      (py "accuracy_metrics",
       PyDict [ (py "precision", PyFloat 0.9%float); (py "recall", PyFloat 0.8%float) ]) ].

Definition address_leak_response : response :=
  {| text := None; parsed := address_leak_result |}.

Definition timeout_error : pyexception := Exc TimeoutError (py "timed out").

(** The texts of the address-leak scenario. *)
Definition john : pystr := py "John Smith lives at 123 Main St".
Definition john_sanitized : pystr := py "[REDACTED_NAME] lives at 123 Main St".

(** A three-page document whose second page has no text layer, and a
    reader that rejects an empty stream and a stream it cannot parse. *)
Definition pdf_magic : list byte := [x25; x50; x44; x46].

Definition PdfReader (file_bytes : list byte) : result (list (result (option pystr))) :=
  match file_bytes with
  | [] => Raise (Exc PdfReadError (py "Cannot read an empty file"))
  | [x25; x50; x44; x46] =>
      Return [ Return (Some (py "Hello")); Return None; Return (Some (py "World")) ]
  | [x25; x50; x44; x46; x21] =>
      Return [ Return (Some (py "Hello")); Raise (Exc (OtherException (py "PdfStreamError")) (py "Stream has ended unexpectedly")) ]
  | _ => Raise (Exc PdfReadError (py "EOF marker not found"))
  end.

Definition pages_len (reader : list (result (option pystr))) : result nat :=
  Return (length reader).

Definition pages_getitem (reader : list (result (option pystr))) (i : nat)
  : result (result (option pystr)) :=
  match nth_error reader i with
  | Some page => Return page
  | None => Raise (Exc IndexError (py "sequence index out of range"))
  end.

Definition extract_text (page : result (option pystr)) : result (option pystr) := page.

Definition extract_text_from_pdf : list byte -> M unit pystr :=
  pdfUtils.extract_text_from_pdf stdout_write PdfReader pages_len pages_getitem extract_text.

Definition blank : world unit := World [] tt.

End Mock.

(** ** The client's API key (geminiService.py, module level) *)

Module geminiClient.

(** [a or b] on two [Optional[str]]: [a] when it counts as true, [b]
    otherwise, whatever [b] is. *)
Definition opt_or (a b : option pystr) : option pystr :=
  match a with
  | Some (_ :: _) => a
  | Some [] => b
  | None => b
  end.

(** [os.getenv("GOOGLE_API_KEY") or os.getenv("API_KEY")], the key the
    client is built with; [getenv] is the environment after
    [load_dotenv]. *)
Definition api_key (getenv : pystr -> option pystr) : option pystr :=
  opt_or (getenv (py "GOOGLE_API_KEY")) (getenv (py "API_KEY")).

End geminiClient.

(** ** redact_api.py *)

Module redact_api.

(** What [upload_pdf] reads of the [UploadFile]: the two attributes and
    the outcome of [await file.read()]. *)
Record UploadFile : Type := {
  filename : option pystr;
  content_type : option pystr;
  read : result (list byte)
}.

(** How a route ends: the value it returns, an [HTTPException] it
    raises, or another exception it lets through. *)
Inductive route_result : Type :=
| Returns (body : pyvalue)
| HTTPException (status_code : Z) (detail : pystr)
| Propagates (e : pyexception).

(** [a != b] where [a] is an [Optional[str]] and [b] a [str]. *)
Definition opt_str_ne (a : option pystr) (b : pystr) : bool :=
  match a with
  | Some a' => negb (str_eqb a' b)
  | None => true
  end.

Definition opt_str_value (a : option pystr) : pyvalue :=
  match a with
  | Some a' => PyStr a'
  | None => PyNone
  end.

Definition upload_pdf (file : UploadFile) : route_result :=
  if opt_str_ne (content_type file) (py "application/pdf") then
    HTTPException 400 (py "File must be a PDF")
  else
    match read file with
    | Raise e => Propagates e
    | Return content =>
        Returns
          (PyDict [ (py "filename", opt_str_value (filename file));
                    (py "size", PyInt (Z.of_nat (length content))) ])
    end.

End redact_api.

(** ** Documents for the test reader *)

Module MockPages.

Definition two_pages_second_unreadable : list (result (option pystr)) :=
  [ Return (Some (py "Hello"));
    Raise (Exc (OtherException (py "PdfStreamError")) (py "Stream has ended unexpectedly")) ].

Definition three_pages_middle_blank : list (result (option pystr)) :=
  [ Return (Some (py "Hello")); Return None; Return (Some (py "World")) ].

End MockPages.

(** ** What can happen to a page of a document *)

Module PdfContract.

Section Pages.

Variable reader_t : Type.
Variable page_t : Type.
Variable pages_getitem : reader_t -> nat -> result page_t.
Variable extract_text : page_t -> result (option pystr).

(** Page [i] of the reader can be fetched and its text extracted. *)
Definition page_reads (reader : reader_t) (i : nat) (t : option pystr) : Prop :=
  exists page, pages_getitem reader i = Return page /\ extract_text page = Return t.

(** Fetching page [i], or extracting its text, raises [e]. *)
Definition page_fails (reader : reader_t) (i : nat) (e : pyexception) : Prop :=
  pages_getitem reader i = Raise e
  \/ exists page, pages_getitem reader i = Return page /\ extract_text page = Raise e.

End Pages.

End PdfContract.

Unset Implicit Arguments.

(** ** Properties of geminiService.py *)

Module GeminiSpec.

Import geminiService Contract.

(** *** What a conforming value looks like *)

Lemma conforms_object_inv (properties : list (pystr * schema)) (required : list pystr)
      (v : pyvalue) :
  conforms (OBJECT properties required) v = true ->
  exists d, v = PyDict d
    /\ (forall k, In k required -> exists x, assoc k d = Some x)
    /\ (forall k sc x, In (k, sc) properties -> assoc k d = Some x -> conforms sc x = true).
Proof.
  destruct v as [ | | | | | | d]; cbn [conforms]; try discriminate.
  intros H. apply andb_prop in H. destruct H as [Hreq Hprops].
  exists d. split; [ reflexivity | split ].
  - intros k Hk. rewrite forallb_forall in Hreq. specialize (Hreq k Hk).
    destruct (assoc k d) as [x | ]; [ exists x; reflexivity | discriminate ].
  - induction properties as [ | [k0 s0] ps IH]; intros k sc x Hin Hx.
    + destruct Hin.
    + apply andb_prop in Hprops. destruct Hprops as [H0 Hps].
      destruct Hin as [E | Hin].
      * injection E as -> ->. rewrite Hx in H0. exact H0.
      * exact (IH Hps k sc x Hin Hx).
Qed.

Lemma conforms_array_inv (items : schema) (v : pyvalue) :
  conforms (ARRAY items) v = true ->
  exists l, v = PyList l /\ forallb (conforms items) l = true.
Proof.
  destruct v as [ | | | | | l | ]; cbn [conforms]; try discriminate.
  intros H. exists l. auto.
Qed.

Lemma conforms_has_key (properties : list (pystr * schema)) (required : list pystr)
      (v : pyvalue) (k : pystr) :
  conforms (OBJECT properties required) v = true -> In k required ->
  has_key k v = true.
Proof.
  intros H Hk. destruct (conforms_object_inv _ _ _ H) as (d & -> & Hreq & _).
  destruct (Hreq k Hk) as [x Hx]. unfold has_key, dict_get. rewrite Hx. reflexivity.
Qed.

Lemma conforms_leak_populated (leak : pyvalue) :
  conforms leak_item_schema leak = true -> leak_populated leak = true.
Proof.
  intros H. unfold leak_populated.
  rewrite !(conforms_has_key _ _ _ _ H); cbn [In]; auto 6.
Qed.

Lemma conforms_fully_populated (v : pyvalue) :
  conforms validation_response_schema v = true -> fully_populated v = true.
Proof.
  intros H. unfold fully_populated.
  rewrite !(conforms_has_key _ _ _ _ H) by (cbn [In]; auto 6).
  destruct (conforms_object_inv _ _ _ H) as (d & -> & Hreq & Hprops).
  destruct (Hreq (py "leaks")) as [x Hx]; [ cbn [In]; auto 6 | ].
  cbn [dict_get]. rewrite Hx.
  assert (Hl : conforms (ARRAY leak_item_schema) x = true).
  { apply (Hprops (py "leaks")); [ cbn [In]; auto 6 | exact Hx ]. }
  destruct (conforms_array_inv _ _ Hl) as (l & -> & Hall).
  cbn [andb]. rewrite forallb_forall in *.
  intros leak Hin. apply conforms_leak_populated. exact (Hall leak Hin).
Qed.

(** A conforming result is a non-empty dict, so it counts as true. *)
Lemma conforms_truthy (v : pyvalue) :
  conforms validation_response_schema v = true -> truthy v = true.
Proof.
  intros H. destruct (conforms_object_inv _ _ _ H) as (d & -> & Hreq & _).
  destruct (Hreq (py "score")) as [x Hx]; [ cbn [In]; auto | ].
  destruct d; [ discriminate | reflexivity ].
Qed.

Section WithClient.

Variable service_state : Type.
Variable stdout_write : pystr -> result unit.
Variable generate_content :
  request -> service_state -> result response * service_state.
Variable json_loads : pystr -> result pyvalue.

Notation W := (world (client_state service_state)).
Notation call := (client_models_generate_content generate_content).

Lemma call_run (req : request) (w : W) r s' :
  generate_content req (service (ext w)) = (r, s') ->
  call req w = (r, after_call w req s').
Proof.
  intros H. unfold client_models_generate_content, after_call.
  rewrite H. reflexivity.
Qed.

(** The [try] body of the audit, in terms of what the provider and the
    decoder do. *)
Lemma audit_try_run (o s : pystr) (w : W) r s' :
  generate_content (audit_request_for o s) (service (ext w)) = (r, s') ->
  perform_privacy_validation_try generate_content json_loads o s w =
  match r with
  | Raise e => (Raise e, after_call w (audit_request_for o s) s')
  | Return resp =>
      (if truthy (parsed resp) then Return (parsed resp)
       else json_loads (str_or (text resp) (py "{}")),
       after_call w (audit_request_for o s) s')
  end.
Proof.
  intros H. unfold perform_privacy_validation_try, bind.
  fold (audit_request_for o s).
  rewrite (call_run _ _ _ _ H).
  destruct r as [resp | e]; [ | reflexivity ].
  destruct (truthy (parsed resp)); reflexivity.
Qed.

Lemma summary_try_run (t : pystr) (w : W) r s' :
  generate_content (summary_request t) (service (ext w)) = (r, s') ->
  generate_summary_try generate_content t w =
  match r with
  | Raise e => (Raise e, after_call w (summary_request t) s')
  | Return resp =>
      (Return (str_or (text resp) (py "No summary generated.")),
       after_call w (summary_request t) s')
  end.
Proof.
  intros H. unfold generate_summary_try, bind.
  rewrite (call_run _ _ _ _ H).
  destruct r; reflexivity.
Qed.

(** The two [except] branches, in terms of what the stream does with the
    error line. *)
Lemma audit_except_run (e : pyexception) (w : W) :
  perform_privacy_validation_except stdout_write e w
  = match stdout_write (py "Privacy validation failed: " ++ exc_str e) with
    | Return _ =>
        (Return fallback_result,
         World (stdout w ++ [py "Privacy validation failed: " ++ exc_str e]) (ext w))
    | Raise e' => (Raise e', w)
    end.
Proof.
  unfold perform_privacy_validation_except, bind, print, ret, logged.
  destruct (stdout_write _); reflexivity.
Qed.

Lemma summary_except_run (e : pyexception) (w : W) :
  generate_summary_except stdout_write e w
  = match stdout_write (py "Error during Gemini summarization: " ++ exc_str e) with
    | Return _ =>
        (Raise e,
         World (stdout w ++ [py "Error during Gemini summarization: " ++ exc_str e]) (ext w))
    | Raise e' => (Raise e', w)
    end.
Proof.
  unfold generate_summary_except, bind, print, raise, logged.
  destruct (stdout_write _); reflexivity.
Qed.

(** When the [try] body of the audit raises: the provider call raised,
    or nothing truthy was pre-parsed and the decoder rejected the text. *)
Lemma audit_try_raises_iff (o s : pystr) (w : W) (e : pyexception) r s' :
  generate_content (audit_request_for o s) (service (ext w)) = (r, s') ->
  (fst (perform_privacy_validation_try generate_content json_loads o s w) = Raise e
   <->
   r = Raise e
   \/ exists resp, r = Return resp /\ truthy (parsed resp) = false
                   /\ json_loads (str_or (text resp) (py "{}")) = Raise e).
Proof.
  intros H. rewrite (audit_try_run o s w r s' H).
  destruct r as [resp | e0]; cbn [fst].
  - destruct (truthy (parsed resp)) eqn:T; split.
    + discriminate.
    + intros [F | (resp' & E & F & _)]; [ discriminate | ].
      injection E as <-. congruence.
    + intros J. right. exists resp. auto.
    + intros [F | (resp' & E & _ & J)]; [ discriminate | ].
      injection E as <-. exact J.
  - split.
    + intros E. left. injection E as ->. reflexivity.
    + intros [E | (resp & E & _)]; [ injection E as ->; reflexivity | discriminate ].
Qed.

(** X1. An exception that leaves the audit was raised by [print] in the
    handler: the [try] body had raised, and the stream refused the error
    line.  What the provider or the decoder raised does not reach the
    caller. *)
Theorem audit_raises_only_from_print (o s : pystr) (w : W) (e : pyexception) :
  fst (perform_privacy_validation stdout_write generate_content json_loads o s w) = Raise e ->
  exists e0 w',
    perform_privacy_validation_try generate_content json_loads o s w = (Raise e0, w')
    /\ stdout_write (py "Privacy validation failed: " ++ exc_str e0) = Raise e.
Proof.
  unfold perform_privacy_validation, try_except.
  destruct (perform_privacy_validation_try generate_content json_loads o s w)
    as [[v | e0] w'].
  - discriminate.
  - rewrite audit_except_run.
    destruct (stdout_write (py "Privacy validation failed: " ++ exc_str e0))
      as [u | e'] eqn:P; cbn [fst].
    + discriminate.
    + intros H. injection H as ->. exists e0, w'. auto.
Qed.


(** When [print] raises in the handler, its exception is what the caller
    gets: no fallback, nothing printed. *)
Lemma audit_print_failure_escapes (o s : pystr) (w w' : W) (e e' : pyexception) :
  perform_privacy_validation_try generate_content json_loads o s w = (Raise e, w') ->
  stdout_write (py "Privacy validation failed: " ++ exc_str e) = Raise e' ->
  perform_privacy_validation stdout_write generate_content json_loads o s w = (Raise e', w').
Proof.
  intros H P. unfold perform_privacy_validation, try_except. rewrite H.
  rewrite audit_except_run, P. reflexivity.
Qed.

(** C2. If the provider call succeeds and the response carries a
    pre-parsed object that satisfies the declared schema, the audit
    returns that very object, nothing is printed, and the object has its
    four top-level fields and every element of [leaks] has its four
    fields. *)
Theorem parsed_object_returned_directly
    (o s : pystr) (w : W) (resp : response) (s' : service_state) :
  generate_content (audit_request_for o s) (service (ext w)) = (Return resp, s') ->
  conforms validation_response_schema (parsed resp) = true ->
  perform_privacy_validation stdout_write generate_content json_loads o s w
  = (Return (parsed resp), after_call w (audit_request_for o s) s')
  /\ fully_populated (parsed resp) = true.
Proof.
  intros Hcall Hconf. split.
  - unfold perform_privacy_validation, try_except.
    rewrite (audit_try_run o s w _ s' Hcall).
    rewrite (conforms_truthy _ Hconf). reflexivity.
  - exact (conforms_fully_populated _ Hconf).
Qed.

(** X4. Whatever the pre-parsed object is, it is returned as it is once it
    counts as true. *)
Lemma truthy_parsed_returned (o s : pystr) (w : W) (resp : response) (s' : service_state) :
  generate_content (audit_request_for o s) (service (ext w)) = (Return resp, s') ->
  truthy (parsed resp) = true ->
  perform_privacy_validation stdout_write generate_content json_loads o s w
  = (Return (parsed resp), after_call w (audit_request_for o s) s').
Proof.
  intros Hcall Ht. unfold perform_privacy_validation, try_except.
  rewrite (audit_try_run o s w _ s' Hcall), Ht. reflexivity.
Qed.

(** C4. If the provider call succeeds, no pre-parsed object is exposed
    ([response.parsed] is [None], or anything that counts as false) and
    the response text is empty or absent, the audit decodes the text
    ['{}'] and returns the decoder's result, the empty dict.  That is not
    the fallback, it has none of the required fields, and nothing is
    printed. *)
Theorem empty_body_returns_empty_object
    (o s : pystr) (w : W) (resp : response) (s' : service_state) :
  json_loads (py "{}") = Return (PyDict []) ->
  generate_content (audit_request_for o s) (service (ext w)) = (Return resp, s') ->
  truthy (parsed resp) = false ->
  empty_body (text resp) = true ->
  perform_privacy_validation stdout_write generate_content json_loads o s w
  = (Return (PyDict []), after_call w (audit_request_for o s) s')
  /\ PyDict [] <> fallback_result
  /\ conforms validation_response_schema (PyDict []) = false
  /\ fully_populated (PyDict []) = false.
Proof.
  intros Hjson Hcall Hparsed Hbody. split; [ | split; [ | split ] ].
  - unfold perform_privacy_validation, try_except.
    rewrite (audit_try_run o s w _ s' Hcall), Hparsed.
    replace (str_or (text resp) (py "{}")) with (py "{}").
    + rewrite Hjson. reflexivity.
    + destruct (text resp) as [[ | c t] | ]; try reflexivity. discriminate.
  - discriminate.
  - reflexivity.
  - reflexivity.
Qed.

(** C5. If the provider call succeeds, [generate_summary] returns the
    literal "No summary generated." when the response text is empty or
    absent, and the response text itself, unchanged, otherwise. *)
Theorem summary_is_text_or_placeholder
    (t : pystr) (w : W) (resp : response) (s' : service_state) :
  generate_content (summary_request t) (service (ext w)) = (Return resp, s') ->
  exists summary,
    generate_summary stdout_write generate_content t w
    = (Return summary, after_call w (summary_request t) s')
    /\ (empty_body (text resp) = true -> summary = py "No summary generated.")
    /\ (forall body, text resp = Some body -> body <> [] -> summary = body).
Proof.
  intros Hcall. unfold generate_summary, try_except.
  rewrite (summary_try_run t w _ s' Hcall).
  eexists. split; [ reflexivity | split ].
  - destruct (text resp) as [[ | c body] | ]; [ reflexivity | discriminate | reflexivity ].
  - intros body -> Hne. destruct body; [ contradiction | reflexivity ].
Qed.



(** When [print] raises in the handler, its exception replaces the
    provider's. *)
Lemma summary_print_failure_escapes
    (t : pystr) (w : W) (e e' : pyexception) (s' : service_state) :
  generate_content (summary_request t) (service (ext w)) = (Raise e, s') ->
  stdout_write (py "Error during Gemini summarization: " ++ exc_str e) = Raise e' ->
  generate_summary stdout_write generate_content t w
  = (Raise e', after_call w (summary_request t) s').
Proof.
  intros Hcall P. unfold generate_summary, try_except.
  rewrite (summary_try_run t w _ s' Hcall), summary_except_run, P. reflexivity.
Qed.

(** C10. Whenever [generate_summary] returns, the string it returns is
    not empty: it is the non-empty response text, or the placeholder. *)
Theorem summary_never_empty (t : pystr) (w : W) (summary : pystr) :
  fst (generate_summary stdout_write generate_content t w) = Return summary ->
  summary <> []
  /\ exists resp s',
       generate_content (summary_request t) (service (ext w)) = (Return resp, s')
       /\ (summary = py "No summary generated." /\ empty_body (text resp) = true
           \/ text resp = Some summary).
Proof.
  destruct (generate_content (summary_request t) (service (ext w)))
    as [r s'] eqn:Hcall.
  unfold generate_summary, try_except.
  rewrite (summary_try_run t w r s' Hcall).
  destruct r as [resp | e]; cbn;
    [ | rewrite summary_except_run; destruct (stdout_write _); discriminate ].
  intros H. injection H as <-.
  destruct (text resp) as [[ | c body] | ] eqn:T; cbn.
  - split; [ discriminate | ]. exists resp, s'. rewrite T. auto.
  - split; [ discriminate | ]. exists resp, s'. rewrite T. auto.
  - split; [ discriminate | ]. exists resp, s'. rewrite T. auto.
Qed.

(** The request the audit sends is the only change it makes to the
    record of requests. *)
Lemma audit_sends_one_request (o s : pystr) (w : W) :
  sent (ext (snd (perform_privacy_validation stdout_write generate_content json_loads o s w)))
  = sent (ext w) ++ [audit_request_for o s].
Proof.
  destruct (generate_content (audit_request_for o s) (service (ext w)))
    as [r s'] eqn:Hcall.
  unfold perform_privacy_validation, try_except.
  rewrite (audit_try_run o s w r s' Hcall).
  destruct r as [resp | e];
    [ | rewrite audit_except_run; destruct (stdout_write _); reflexivity ].
  destruct (truthy (parsed resp)); [ reflexivity | ].
  destruct (json_loads _);
    [ | rewrite audit_except_run; destruct (stdout_write _) ]; reflexivity.
Qed.

(** C3. The audit sends the provider one request.  Its prompt holds, under
    the label "ORIGINAL TEXT SAMPLE:", a prefix of [original_text] of
    length [min(len, 20000)] and, under the label "SANITIZED TEXT SAMPLE:",
    a prefix of [sanitized_text] of length [min(len, 20000)]; what lies
    beyond the first 20,000 characters of either is not in the prompt. *)
Theorem prompt_holds_truncated_samples (original_text sanitized_text : pystr) (w : W) :
  exists original_sample original_rest sanitized_sample sanitized_rest req,
    sent (ext (snd (perform_privacy_validation stdout_write generate_content json_loads
                      original_text sanitized_text w)))
    = sent (ext w) ++ [req]
    /\ contents req
       = py (nl ++ "        ORIGINAL TEXT SAMPLE:" ++ nl ++ "        ")%string
         ++ original_sample
         ++ py (nl ++ nl ++ "        SANITIZED TEXT SAMPLE:" ++ nl ++ "        ")%string
         ++ sanitized_sample
         ++ py (nl ++ "        " ++ nl
                ++ "        Audit the SANITIZED sample against the ORIGINAL sample."
                ++ nl ++ "        ")%string
    /\ original_text = original_sample ++ original_rest
    /\ length original_sample = Nat.min (length original_text) 20000
    /\ sanitized_text = sanitized_sample ++ sanitized_rest
    /\ length sanitized_sample = Nat.min (length sanitized_text) 20000.
Proof.
  exists (firstn 20000 original_text), (skipn 20000 original_text),
         (firstn 20000 sanitized_text), (skipn 20000 sanitized_text),
         (audit_request_for original_text sanitized_text).
  split; [ apply audit_sends_one_request | ].
  split; [ reflexivity | ].
  split; [ symmetry; apply firstn_skipn | ].
  split; [ rewrite length_firstn; apply Nat.min_comm | ].
  split; [ symmetry; apply firstn_skipn | ].
  rewrite length_firstn; apply Nat.min_comm.
Qed.

(** X2. Two pairs of texts that agree on their first 20,000 characters get
    the same audit. *)
Lemma audit_blind_beyond_limit (o1 s1 o2 s2 : pystr) (w : W) :
  firstn 20000 o1 = firstn 20000 o2 ->
  firstn 20000 s1 = firstn 20000 s2 ->
  perform_privacy_validation stdout_write generate_content json_loads o1 s1 w
  = perform_privacy_validation stdout_write generate_content json_loads o2 s2 w.
Proof.
  intros Ho Hs.
  unfold perform_privacy_validation, perform_privacy_validation_try.
  rewrite Ho, Hs. reflexivity.
Qed.

(** How the audit ends is a function of the provider's outcome on the
    request it sends (and of what the stream does with the error line):
    not of what was printed before, of the requests sent before, or of
    the state of the service. *)
Lemma audit_result_from_outcome (o s : pystr) (w : W) :
  fst (perform_privacy_validation stdout_write generate_content json_loads o s w)
  = match fst (generate_content (audit_request_for o s) (service (ext w))) with
    | Raise e => absorbed stdout_write e
    | Return resp =>
        if truthy (parsed resp) then Return (parsed resp)
        else match json_loads (str_or (text resp) (py "{}")) with
             | Return v => Return v
             | Raise e => absorbed stdout_write e
             end
    end.
Proof.
  destruct (generate_content (audit_request_for o s) (service (ext w)))
    as [r s'] eqn:Hcall.
  unfold perform_privacy_validation, try_except, absorbed.
  rewrite (audit_try_run o s w r s' Hcall).
  destruct r as [resp | e]; cbn [fst];
    [ | rewrite audit_except_run; destruct (stdout_write _); reflexivity ].
  destruct (truthy (parsed resp)); [ reflexivity | ].
  destruct (json_loads _);
    [ | rewrite audit_except_run; destruct (stdout_write _) ]; reflexivity.
Qed.


End WithClient.



Lemma parsed_object_returned_directly_witness :
  perform_privacy_validation Mock.stdout_write
    (Mock.scripted (Return Mock.address_leak_response)) Mock.json_loads
    Mock.john Mock.john_sanitized Mock.fresh
  = (Return Mock.address_leak_result,
     after_call Mock.fresh (audit_request_for Mock.john Mock.john_sanitized) 1)
  /\ fully_populated Mock.address_leak_result = true.
Proof.
  apply (parsed_object_returned_directly nat Mock.stdout_write
           (Mock.scripted (Return Mock.address_leak_response)) Mock.json_loads
           Mock.john Mock.john_sanitized Mock.fresh Mock.address_leak_response 1).
  - reflexivity.
  - vm_compute. reflexivity.
Defined.

Lemma empty_body_returns_empty_object_witness :
  perform_privacy_validation Mock.stdout_write
    (Mock.scripted (Return {| text := None; parsed := PyNone |})) Mock.json_loads
    Mock.john Mock.john_sanitized Mock.fresh
  = (Return (PyDict []), after_call Mock.fresh (audit_request_for Mock.john Mock.john_sanitized) 1)
  /\ PyDict [] <> fallback_result
  /\ conforms validation_response_schema (PyDict []) = false
  /\ fully_populated (PyDict []) = false.
Proof.
  apply (empty_body_returns_empty_object nat Mock.stdout_write
           (Mock.scripted (Return {| text := None; parsed := PyNone |})) Mock.json_loads
           Mock.john Mock.john_sanitized Mock.fresh {| text := None; parsed := PyNone |} 1);
    reflexivity.
Defined.

Lemma summary_is_text_or_placeholder_witness :
  exists summary,
    generate_summary Mock.stdout_write
      (Mock.scripted (Return {| text := Some (py "Quarterly report."); parsed := PyNone |}))
      Mock.john_sanitized Mock.fresh
    = (Return summary, after_call Mock.fresh (summary_request Mock.john_sanitized) 1)
    /\ (empty_body (Some (py "Quarterly report.")) = true
        -> summary = py "No summary generated.")
    /\ (forall body, Some (py "Quarterly report.") = Some body -> body <> [] -> summary = body).
Proof.
  apply (summary_is_text_or_placeholder nat Mock.stdout_write
           (Mock.scripted (Return {| text := Some (py "Quarterly report."); parsed := PyNone |}))
           Mock.john_sanitized Mock.fresh
           {| text := Some (py "Quarterly report."); parsed := PyNone |} 1).
  reflexivity.
Defined.



Lemma summary_never_empty_witness :
  py "No summary generated." <> []
  /\ exists resp s',
       Mock.scripted (Return {| text := Some []; parsed := PyNone |})
                     (summary_request Mock.john_sanitized) (service (ext Mock.fresh))
       = (Return resp, s')
       /\ (py "No summary generated." = py "No summary generated."
           /\ empty_body (text resp) = true
           \/ text resp = Some (py "No summary generated.")).
Proof.
  apply (summary_never_empty nat Mock.stdout_write
           (Mock.scripted (Return {| text := Some []; parsed := PyNone |}))
           Mock.john_sanitized Mock.fresh (py "No summary generated.")).
  reflexivity.
Defined.

Lemma scripted_deterministic (outcome : result response) :
  deterministic (Mock.scripted outcome).
Proof. intros req s1 s2. reflexivity. Qed.


(** *** Runs on concrete inputs *)

(** The two end-to-end scenarios: the address leak is returned unchanged,
    a timeout gives the fallback. *)
Example address_leak_scenario :
  fst (perform_privacy_validation Mock.stdout_write (Mock.scripted (Return Mock.address_leak_response))
         Mock.json_loads Mock.john Mock.john_sanitized Mock.fresh)
  = Return Mock.address_leak_result.
Proof. reflexivity. Qed.

Example timeout_scenario :
  fst (perform_privacy_validation Mock.stdout_write (Mock.scripted (Raise Mock.timeout_error))
         Mock.json_loads Mock.john Mock.john_sanitized Mock.fresh)
  = Return fallback_result.
Proof. reflexivity. Qed.

(** An empty dict exposed as [response.parsed] counts as false, so the
    text is decoded instead. *)
Example empty_parsed_dict_is_not_used :
  fst (perform_privacy_validation Mock.stdout_write
         (Mock.scripted (Return {| text := Some (py "not json"); parsed := PyDict [] |}))
         Mock.json_loads Mock.john Mock.john_sanitized Mock.fresh)
  = Return fallback_result.
Proof. reflexivity. Qed.

(** Against a provider that is not deterministic the second call can
    differ from the first. *)
Example flaky_provider_differs :
  let first :=
    perform_privacy_validation Mock.stdout_write (Mock.flaky Mock.address_leak_response)
                               Mock.json_loads Mock.john Mock.john_sanitized Mock.fresh in
  let second :=
    perform_privacy_validation Mock.stdout_write (Mock.flaky Mock.address_leak_response)
                               Mock.json_loads Mock.john Mock.john_sanitized (snd first) in
  fst first = Return fallback_result /\ fst second = Return Mock.address_leak_result.
Proof. split; reflexivity. Qed.

(** A leak at offset 20,000 of the sanitized text does not reach the
    provider. *)
Lemma leak_beyond_limit_not_sent (padding leak : pystr) :
  length padding = 20000 ->
  audit_request_for Mock.john (padding ++ leak) = audit_request_for Mock.john padding.
Proof.
  intros H. unfold audit_request_for.
  assert (E1 : firstn 20000 (padding ++ leak) = padding).
  { rewrite <- H, firstn_app, Nat.sub_diag, firstn_O, app_nil_r. apply firstn_all. }
  assert (E2 : firstn 20000 padding = padding).
  { rewrite <- H. apply firstn_all. }
  rewrite E1, E2. reflexivity.
Qed.

Example truthy_empty_dict : truthy (PyDict []) = false.
Proof. reflexivity. Qed.

(** The placeholder stands in for an absent text and for an empty one. *)
Example summary_of_absent_text :
  fst (generate_summary Mock.stdout_write (Mock.scripted (Return {| text := None; parsed := PyNone |}))
                        Mock.john_sanitized Mock.fresh)
  = Return (py "No summary generated.").
Proof. reflexivity. Qed.

Example summary_of_empty_text :
  fst (generate_summary Mock.stdout_write (Mock.scripted (Return {| text := Some []; parsed := PyNone |}))
                        Mock.john_sanitized Mock.fresh)
  = Return (py "No summary generated.").
Proof. reflexivity. Qed.

(** A response that misses required fields, and raises nothing, is
    returned as it is. *)
Example incomplete_parsed_object_returned :
  fst (perform_privacy_validation Mock.stdout_write
         (Mock.scripted (Return {| text := None;
                                   parsed := PyDict [ (py "score", PyInt 5) ] |}))
         Mock.json_loads Mock.john Mock.john_sanitized Mock.fresh)
  = Return (PyDict [ (py "score", PyInt 5) ]).
Proof. reflexivity. Qed.

End GeminiSpec.

(** ** Properties of pdfUtils.py *)

Module PdfSpec.

Import pdfUtils.

Lemma concat_segments_from (i : nat) (texts : list pystr) :
  concat (segments_from i texts) = pages_joined_from (S i) texts.
Proof.
  revert i. induction texts as [ | t texts IH]; intros i.
  - reflexivity.
  - cbn [segments_from concat pages_joined_from]. rewrite IH.
    unfold page_segment, page_header. rewrite Nat.add_1_r.
    rewrite <- !app_assoc. reflexivity.
Qed.

Section WithPypdf.

Variable stdout_write : pystr -> result unit.
Variable reader_t : Type.
Variable page_t : Type.
Variable PdfReader : list byte -> result reader_t.
Variable pages_len : reader_t -> result nat.
Variable pages_getitem : reader_t -> nat -> result page_t.
Variable extract_text : page_t -> result (option pystr).

Notation extract_try :=
  (extract_text_from_pdf_try PdfReader pages_len pages_getitem extract_text).
Notation extract :=
  (extract_text_from_pdf stdout_write PdfReader pages_len pages_getitem extract_text).

(** The loop over the pages, when every page can be fetched and read. *)
Lemma for_each_page_run (reader : reader_t) (texts : list (option pystr)) :
  forall (start : nat) (full_text : list pystr) (w : world unit),
    (forall i t, nth_error texts i = Some t ->
                 exists page, pages_getitem reader (start + i) = Return page
                              /\ extract_text page = Return t) ->
    for_each (seq start (length texts))
             (extract_page pages_getitem extract_text reader) full_text w
    = (Return (full_text ++ segments_from start (map (fun t => str_or t []) texts)), w).
Proof.
  induction texts as [ | t texts IH]; intros start full_text w Hpages.
  - cbn. rewrite app_nil_r. reflexivity.
  - cbn [length seq for_each map segments_from].
    destruct (Hpages 0 t eq_refl) as (page & Hget & Htext).
    rewrite Nat.add_0_r in Hget.
    unfold bind at 1. unfold extract_page at 1. unfold bind, lift, ret.
    rewrite Hget, Htext.
    rewrite (IH (S start) (full_text ++ [page_segment start (str_or t [])]) w).
    + rewrite <- app_assoc. reflexivity.
    + intros i t' Hi. destruct (Hpages (S i) t' Hi) as (page' & Hget' & Htext').
      exists page'. rewrite Nat.add_succ_comm. auto.
Qed.

(** C8. When the reader opens the document and every page can be fetched
    and its text extracted, [extract_text_from_pdf] returns the
    concatenation of one segment per page, in page order, each headed
    by "--- Page N ---" with N counting from 1; a page without text
    contributes an empty text.  Nothing is printed. *)
Theorem extract_joins_pages_with_headers
    (file_bytes : list byte) (w : world unit)
    (reader : reader_t) (texts : list (option pystr)) :
  PdfReader file_bytes = Return reader ->
  pages_len reader = Return (length texts) ->
  (forall i t, nth_error texts i = Some t ->
               exists page, pages_getitem reader i = Return page
                            /\ extract_text page = Return t) ->
  extract file_bytes w
  = (Return (pages_joined (map (fun t => str_or t []) texts)), w).
Proof.
  intros Hopen Hlen Hpages.
  unfold extract_text_from_pdf, try_except, extract_text_from_pdf_try.
  unfold bind at 1. unfold lift at 1. rewrite Hopen.
  unfold bind at 1. unfold lift at 1. rewrite Hlen.
  unfold bind at 1. unfold range.
  rewrite (for_each_page_run reader texts 0 [] w Hpages).
  unfold ret. rewrite app_nil_l, concat_segments_from. reflexivity.
Qed.



Lemma extract_except_run (e : pyexception) (w : world unit) :
  extract_text_from_pdf_except stdout_write e w
  = match stdout_write (py "Error extracting text from PDF: " ++ exc_str e) with
    | Return _ =>
        (Raise extraction_failed,
         World (stdout w ++ [py "Error extracting text from PDF: " ++ exc_str e]) (ext w))
    | Raise e' => (Raise e', w)
    end.
Proof.
  unfold extract_text_from_pdf_except, bind, print, raise, logged.
  destruct (stdout_write _); reflexivity.
Qed.


(** When [print] raises in the handler, its exception is what the caller
    gets, without the hint. *)
Lemma extract_print_failure_escapes
    (file_bytes : list byte) (w w' : world unit) (e e' : pyexception) :
  extract_try file_bytes w = (Raise e, w') ->
  stdout_write (py "Error extracting text from PDF: " ++ exc_str e) = Raise e' ->
  extract file_bytes w = (Raise e', w').
Proof.
  intros H P. unfold extract_text_from_pdf, try_except.
  rewrite H, extract_except_run, P. reflexivity.
Qed.

(** [extract_text_from_pdf] raises that [ValueError], or what [print]
    raised in the handler; nothing else. *)
Lemma extract_raises_value_error_or_print_error
    (file_bytes : list byte) (w : world unit) (e : pyexception) :
  fst (extract file_bytes w) = Raise e ->
  e = extraction_failed
  \/ exists e0, fst (extract_try file_bytes w) = Raise e0
                /\ stdout_write (py "Error extracting text from PDF: " ++ exc_str e0)
                   = Raise e.
Proof.
  unfold extract_text_from_pdf, try_except.
  destruct (extract_try file_bytes w) as [[t | e0] w']; cbn [fst].
  - discriminate.
  - rewrite extract_except_run.
    destruct (stdout_write (py "Error extracting text from PDF: " ++ exc_str e0))
      as [u | e'] eqn:P; cbn [fst]; intros H; injection H as <-.
    + left. reflexivity.
    + right. exists e0. auto.
Qed.

(** The reader rejecting the bytes is one way for the [try] body to raise. *)
Lemma extract_try_reader_raises (file_bytes : list byte) (w : world unit) (e : pyexception) :
  PdfReader file_bytes = Raise e ->
  extract_try file_bytes w = (Raise e, w).
Proof.
  intros H. unfold extract_text_from_pdf_try, bind, lift. rewrite H. reflexivity.
Qed.

End WithPypdf.

Lemma extract_joins_pages_with_headers_witness :
  Mock.extract_text_from_pdf Mock.pdf_magic Mock.blank
  = (Return (pages_joined [py "Hello"; []; py "World"]), Mock.blank).
Proof.
  apply (extract_joins_pages_with_headers Mock.stdout_write _ _
           Mock.PdfReader Mock.pages_len Mock.pages_getitem Mock.extract_text
           Mock.pdf_magic Mock.blank
           [ Return (Some (py "Hello")); Return None; Return (Some (py "World")) ]
           [ Some (py "Hello"); None; Some (py "World") ]).
  - reflexivity.
  - reflexivity.
  - intros i t H.
    destruct i as [ | [ | [ | i]]]; cbn in H.
    + injection H as <-. eexists. split; reflexivity.
    + injection H as <-. eexists. split; reflexivity.
    + injection H as <-. eexists. split; reflexivity.
    + destruct i; discriminate.
Defined.



(** *** Runs on concrete inputs *)

Example three_pages :
  fst (Mock.extract_text_from_pdf Mock.pdf_magic Mock.blank)
  = Return (py ("--- Page 1 ---" ++ geminiService.nl ++ "Hello"
                ++ geminiService.nl ++ geminiService.nl
                ++ "--- Page 2 ---" ++ geminiService.nl
                ++ geminiService.nl ++ geminiService.nl
                ++ "--- Page 3 ---" ++ geminiService.nl ++ "World"
                ++ geminiService.nl ++ geminiService.nl)%string).
Proof. reflexivity. Qed.

(** A page that cannot be read makes the whole extraction fail, the
    pages before it notwithstanding. *)
Example unreadable_second_page :
  Mock.extract_text_from_pdf (Mock.pdf_magic ++ [x21]) Mock.blank
  = (Raise extraction_failed,
     World [py "Error extracting text from PDF: Stream has ended unexpectedly"] tt).
Proof. reflexivity. Qed.

Example str_of_nat_12 : str_of_nat 12 = py "12".
Proof. reflexivity. Qed.

End PdfSpec.

(** ** Facts about strings *)

Module PyFacts.

(** A string compared with itself. *)
Lemma str_eqb_refl (a : pystr) : str_eqb a a = true.
Proof.
  induction a as [ | c a IH]; [ reflexivity | ].
  cbn [str_eqb]. unfold codepoint_eqb. rewrite N.eqb_refl. exact IH.
Qed.

Lemma str_eqb_eq (a b : pystr) : str_eqb a b = true -> a = b.
Proof.
  revert b. induction a as [ | c a IH]; intros [ | d b]; cbn [str_eqb];
    try discriminate; [ reflexivity | ].
  intros H. apply andb_prop in H. destruct H as [Hc Hab].
  apply N.eqb_eq in Hc. rewrite Hc, (IH b Hab). reflexivity.
Qed.

End PyFacts.

(** ** Further properties of geminiService.py *)

Module GeminiMore.

Import geminiService Contract.

Section WithClient.

Variable service_state : Type.
Variable stdout_write : pystr -> result unit.
Variable generate_content :
  request -> service_state -> result response * service_state.
Variable json_loads : pystr -> result pyvalue.

Notation W := (world (client_state service_state)).

(** X3. Texts of at most 20,000 characters reach the provider in full. *)
Theorem short_texts_sent_in_full (original_text sanitized_text : pystr) (w : W) :
  length original_text <= 20000 ->
  length sanitized_text <= 20000 ->
  exists req,
    sent (ext (snd (perform_privacy_validation stdout_write generate_content json_loads
                      original_text sanitized_text w)))
    = sent (ext w) ++ [req]
    /\ contents req
       = prompt_head ++ original_text ++ prompt_middle ++ sanitized_text ++ prompt_tail.
Proof.
  intros Ho Hs. exists (audit_request_for original_text sanitized_text). split.
  - apply GeminiSpec.audit_sends_one_request.
  - unfold audit_request_for, audit_request, audit_prompt. cbn [contents].
    rewrite !firstn_all2 by assumption. reflexivity.
Qed.

(** X5. What the audit adds to standard output: the one line
    "Privacy validation failed: <error>" when the provider call raised or
    the decoder rejected the text, and the stream takes the line; nothing
    in every other case. *)
Theorem audit_prints_only_on_fallback (o s : pystr) (w : W) r s' :
  generate_content (audit_request_for o s) (service (ext w)) = (r, s') ->
  stdout (snd (perform_privacy_validation stdout_write generate_content json_loads o s w))
  = stdout w
    ++ match r with
       | Raise e => printed stdout_write (py "Privacy validation failed: " ++ exc_str e)
       | Return resp =>
           if truthy (parsed resp) then []
           else match json_loads (str_or (text resp) (py "{}")) with
                | Return _ => []
                | Raise e =>
                    printed stdout_write (py "Privacy validation failed: " ++ exc_str e)
                end
       end.
Proof.
  intros Hcall. unfold perform_privacy_validation, try_except, printed.
  rewrite (GeminiSpec.audit_try_run _ generate_content json_loads o s w r s' Hcall).
  destruct r as [resp | e].
  - destruct (truthy (parsed resp)); [ cbn; rewrite app_nil_r; reflexivity | ].
    destruct (json_loads _) as [v | e]; [ cbn; rewrite app_nil_r; reflexivity | ].
    rewrite GeminiSpec.audit_except_run.
    destruct (stdout_write _); cbn; [ | rewrite app_nil_r ]; reflexivity.
  - rewrite GeminiSpec.audit_except_run.
    destruct (stdout_write _); cbn; [ | rewrite app_nil_r ]; reflexivity.
Qed.

(** X6. A returned value that violates the declared schema was handed over by
    the provider or by the decoder; the function's own fallback satisfies
    the schema. *)
Theorem schema_violation_comes_from_outside (o s : pystr) (w : W) (v : pyvalue) :
  fst (perform_privacy_validation stdout_write generate_content json_loads o s w) = Return v ->
  conforms validation_response_schema v = false ->
  exists resp,
    fst (generate_content (audit_request_for o s) (service (ext w))) = Return resp
    /\ (truthy (parsed resp) = true /\ parsed resp = v
        \/ truthy (parsed resp) = false
           /\ json_loads (str_or (text resp) (py "{}")) = Return v).
Proof.
  rewrite GeminiSpec.audit_result_from_outcome.
  assert (Hfb : conforms validation_response_schema fallback_result = true)
    by (vm_compute; reflexivity).
  destruct (fst (generate_content (audit_request_for o s) (service (ext w))))
    as [resp | e].
  - destruct (truthy (parsed resp)) eqn:T.
    + intros H _. injection H as <-. exists resp. auto.
    + destruct (json_loads (str_or (text resp) (py "{}"))) as [v' | e] eqn:J.
      * intros H _. injection H as <-. exists resp. auto.
      * unfold absorbed. destruct (stdout_write _); [ | discriminate ].
        intros H Hv. injection H as <-. congruence.
  - unfold absorbed. destruct (stdout_write _); [ | discriminate ].
    intros H Hv. injection H as <-. congruence.
Qed.

(** X7. [generate_summary] sends one request whatever the outcome, and the
    request carries the whole text: nothing is cut, no schema is asked
    for. *)
Theorem summary_sends_whole_text_once (t : pystr) (w : W) :
  exists req,
    sent (ext (snd (generate_summary stdout_write generate_content t w))) = sent (ext w) ++ [req]
    /\ contents req = t
    /\ response_schema (config req) = None
    /\ response_mime_type (config req) = None.
Proof.
  exists (summary_request t).
  destruct (generate_content (summary_request t) (service (ext w)))
    as [r s'] eqn:Hcall.
  unfold generate_summary, try_except.
  rewrite (GeminiSpec.summary_try_run _ generate_content t w r s' Hcall).
  destruct r as [resp | e]; [ auto | ].
  rewrite GeminiSpec.summary_except_run. destruct (stdout_write _); auto.
Qed.

End WithClient.

(** The provider times out and standard output is closed. *)
Lemma audit_raises_only_from_print_witness :
  exists e0 w',
    perform_privacy_validation_try
      (Mock.scripted (Raise Mock.timeout_error)) Mock.json_loads
      Mock.john Mock.john_sanitized Mock.fresh
    = (Raise e0, w')
    /\ Mock.closed_stdout (py "Privacy validation failed: " ++ exc_str e0)
       = Raise (Exc ValueError (py "I/O operation on closed file.")).
Proof.
  apply (GeminiSpec.audit_raises_only_from_print nat Mock.closed_stdout
           (Mock.scripted (Raise Mock.timeout_error)) Mock.json_loads
           Mock.john Mock.john_sanitized Mock.fresh
           (Exc ValueError (py "I/O operation on closed file."))).
  reflexivity.
Defined.

Lemma short_texts_sent_in_full_witness :
  exists req,
    sent (ext (snd (perform_privacy_validation Mock.stdout_write
                      (Mock.scripted (Return Mock.address_leak_response)) Mock.json_loads
                      Mock.john Mock.john_sanitized Mock.fresh)))
    = sent (ext Mock.fresh) ++ [req]
    /\ contents req
       = prompt_head ++ Mock.john ++ prompt_middle ++ Mock.john_sanitized ++ prompt_tail.
Proof.
  apply (short_texts_sent_in_full nat Mock.stdout_write
           (Mock.scripted (Return Mock.address_leak_response)) Mock.json_loads
           Mock.john Mock.john_sanitized Mock.fresh).
  - apply Nat.leb_le. vm_compute. reflexivity.
  - apply Nat.leb_le. vm_compute. reflexivity.
Defined.

Lemma audit_prints_only_on_fallback_witness :
  stdout (snd (perform_privacy_validation Mock.stdout_write
                 (Mock.scripted (Return {| text := Some (py "not json"); parsed := PyNone |}))
                 Mock.json_loads Mock.john Mock.john_sanitized Mock.fresh))
  = stdout Mock.fresh
    ++ [py "Privacy validation failed: "
        ++ exc_str (Exc JSONDecodeError (py "Expecting value: line 1 column 1 (char 0)"))].
Proof.
  apply (audit_prints_only_on_fallback nat Mock.stdout_write
           (Mock.scripted (Return {| text := Some (py "not json"); parsed := PyNone |}))
           Mock.json_loads Mock.john Mock.john_sanitized Mock.fresh
           (Return {| text := Some (py "not json"); parsed := PyNone |}) 1).
  reflexivity.
Defined.

Lemma schema_violation_comes_from_outside_witness :
  exists resp,
    fst (Mock.scripted (Return {| text := None; parsed := PyNone |})
           (audit_request_for Mock.john Mock.john_sanitized) (service (ext Mock.fresh)))
    = Return resp
    /\ (truthy (parsed resp) = true /\ parsed resp = PyDict []
        \/ truthy (parsed resp) = false
           /\ Mock.json_loads (str_or (text resp) (py "{}")) = Return (PyDict [])).
Proof.
  apply (schema_violation_comes_from_outside nat Mock.stdout_write
           (Mock.scripted (Return {| text := None; parsed := PyNone |})) Mock.json_loads
           Mock.john Mock.john_sanitized Mock.fresh (PyDict [])).
  - reflexivity.
  - reflexivity.
Defined.

(** A pre-parsed object that misses required fields, next to a text
    that is not JSON: the object is what the audit returns. *)
Lemma truthy_parsed_returned_witness :
  perform_privacy_validation Mock.stdout_write
    (Mock.scripted (Return {| text := Some (py "not json");
                              parsed := PyDict [ (py "score", PyInt 5) ] |}))
    Mock.json_loads Mock.john Mock.john_sanitized Mock.fresh
  = (Return (PyDict [ (py "score", PyInt 5) ]),
     after_call Mock.fresh (audit_request_for Mock.john Mock.john_sanitized) 1).
Proof.
  apply (GeminiSpec.truthy_parsed_returned nat Mock.stdout_write
           (Mock.scripted (Return {| text := Some (py "not json");
                                     parsed := PyDict [ (py "score", PyInt 5) ] |}))
           Mock.json_loads Mock.john Mock.john_sanitized Mock.fresh
           {| text := Some (py "not json"); parsed := PyDict [ (py "score", PyInt 5) ] |} 1).
  - reflexivity.
  - reflexivity.
Defined.

Lemma firstn_padding (padding rest : pystr) :
  length padding = 20000 -> firstn 20000 (padding ++ rest) = padding.
Proof.
  intros H.
  rewrite <- H, firstn_app, Nat.sub_diag, firstn_O, app_nil_r. apply firstn_all.
Qed.

(** Two sanitized texts that differ only from character 20,000 on. *)
Lemma audit_blind_beyond_limit_witness :
  perform_privacy_validation Mock.stdout_write (Mock.scripted (Return Mock.address_leak_response))
    Mock.json_loads Mock.john (repeat 32%N 20000 ++ py "John Smith") Mock.fresh
  = perform_privacy_validation Mock.stdout_write (Mock.scripted (Return Mock.address_leak_response))
      Mock.json_loads Mock.john (repeat 32%N 20000 ++ py "[REDACTED_NAME]") Mock.fresh.
Proof.
  apply (GeminiSpec.audit_blind_beyond_limit nat Mock.stdout_write
           (Mock.scripted (Return Mock.address_leak_response)) Mock.json_loads
           Mock.john (repeat 32%N 20000 ++ py "John Smith")
           Mock.john (repeat 32%N 20000 ++ py "[REDACTED_NAME]") Mock.fresh).
  - reflexivity.
  - rewrite !firstn_padding by apply repeat_length. reflexivity.
Defined.

End GeminiMore.

(** ** Further properties of pdfUtils.py *)

Module PdfMore.

Import pdfUtils.

(** *** Substrings *)

Lemma startswith_app (needle rest : pystr) : startswith (needle ++ rest) needle = true.
Proof.
  induction needle as [ | c needle IH]; [ destruct rest; reflexivity | ].
  cbn [Datatypes.app startswith]. unfold codepoint_eqb. rewrite N.eqb_refl. exact IH.
Qed.

Lemma str_in_here (needle rest : pystr) : str_in needle (needle ++ rest) = true.
Proof.
  assert (H : forall hay, startswith hay needle = true -> str_in needle hay = true).
  { intros [ | c hay] Hs; cbn [str_in]; rewrite Hs; reflexivity. }
  apply H, startswith_app.
Qed.

Lemma str_in_app (before needle rest : pystr) :
  str_in needle (before ++ needle ++ rest) = true.
Proof.
  induction before as [ | c before IH].
  - rewrite app_nil_l. apply str_in_here.
  - cbn [Datatypes.app str_in]. rewrite IH. apply orb_true_r.
Qed.

(** The segment of page [k] sits in the joined text, after the segments
    of the pages before it. *)
Lemma pages_joined_from_split (texts : list pystr) :
  forall (n i : nat) (t : pystr),
    nth_error texts i = Some t ->
    exists before rest,
      pages_joined_from n texts
      = before ++ (page_header (n + i) ++ NL ++ t ++ NL ++ NL) ++ rest.
Proof.
  induction texts as [ | t0 texts IH]; intros n i t Hi.
  - destruct i; discriminate.
  - destruct i as [ | i]; cbn [nth_error] in Hi.
    + injection Hi as ->. exists [], (pages_joined_from (S n) texts).
      rewrite Nat.add_0_r. reflexivity.
    + destruct (IH (S n) i t Hi) as (before & rest & E).
      exists ((page_header n ++ NL ++ t0 ++ NL ++ NL) ++ before), rest.
      rewrite Nat.add_succ_comm in E.
      cbn [pages_joined_from]. rewrite E. apply app_assoc.
Qed.

Lemma pages_joined_from_nil_iff (n : nat) (texts : list pystr) :
  pages_joined_from n texts = [] <-> texts = [].
Proof.
  split.
  - destruct texts as [ | t texts]; [ reflexivity | ].
    cbn [pages_joined_from]. unfold page_header. discriminate.
  - intros ->. reflexivity.
Qed.

Section WithPypdf.

Variable stdout_write : pystr -> result unit.
Variable reader_t : Type.
Variable page_t : Type.
Variable PdfReader : list byte -> result reader_t.
Variable pages_len : reader_t -> result nat.
Variable pages_getitem : reader_t -> nat -> result page_t.
Variable extract_text : page_t -> result (option pystr).

Notation extract :=
  (extract_text_from_pdf stdout_write PdfReader pages_len pages_getitem extract_text).

Notation page_reads := (PdfContract.page_reads pages_getitem extract_text).
Notation page_fails := (PdfContract.page_fails pages_getitem extract_text).

(** A run on a document all of whose pages can be read. *)
Lemma extract_run (file_bytes : list byte) (w : world unit)
      (reader : reader_t) (texts : list (option pystr)) :
  PdfReader file_bytes = Return reader ->
  pages_len reader = Return (length texts) ->
  (forall i t, nth_error texts i = Some t -> page_reads reader i t) ->
  extract file_bytes w
  = (Return (pages_joined (map (fun t => str_or t []) texts)), w).
Proof.
  intros Hopen Hlen Hpages.
  unfold extract_text_from_pdf, try_except, extract_text_from_pdf_try.
  unfold bind at 1. unfold lift at 1. rewrite Hopen.
  unfold bind at 1. unfold lift at 1. rewrite Hlen.
  unfold bind at 1. unfold range.
  rewrite (PdfSpec.for_each_page_run _ _ pages_getitem extract_text reader texts 0 [] w Hpages).
  unfold ret. rewrite app_nil_l, PdfSpec.concat_segments_from. reflexivity.
Qed.

(** The loop stops at the first page that cannot be read. *)
Lemma for_each_page_fails (reader : reader_t) (e : pyexception) (w : world unit) :
  forall (k n start : nat) (full_text : list pystr),
    k < n ->
    (forall i, i < k -> exists t, page_reads reader (start + i) t) ->
    page_fails reader (start + k) e ->
    for_each (seq start n) (extract_page pages_getitem extract_text reader) full_text w
    = (Raise e, w).
Proof.
  induction k as [ | k IH]; intros n start full_text Hk Hbefore Hfail.
  - destruct n as [ | n]; [ inversion Hk | ].
    rewrite Nat.add_0_r in Hfail.
    cbn [seq for_each]. unfold bind at 1. unfold extract_page at 1.
    unfold bind, lift, ret.
    destruct Hfail as [Hget | (page & Hget & Htext)].
    + rewrite Hget. reflexivity.
    + rewrite Hget, Htext. reflexivity.
  - destruct n as [ | n]; [ inversion Hk | ].
    destruct (Hbefore 0 (Nat.lt_0_succ k)) as (t & page & Hget & Htext).
    rewrite Nat.add_0_r in Hget.
    cbn [seq for_each]. unfold bind at 1. unfold extract_page at 1.
    unfold bind, lift, ret. rewrite Hget, Htext.
    apply IH.
    + apply Nat.succ_lt_mono. exact Hk.
    + intros i Hi. rewrite Nat.add_succ_comm. apply Hbefore.
      apply -> Nat.succ_lt_mono. exact Hi.
    + rewrite Nat.add_succ_comm. exact Hfail.
Qed.

(** X8. One page that cannot be read loses the whole document: the pages
    before it were read, yet no text is returned.  When the error line
    can be written to standard output, the caller gets the [ValueError]
    and the page's own error is only printed. *)
Theorem one_bad_page_fails_extraction
    (file_bytes : list byte) (w : world unit) (reader : reader_t)
    (n k : nat) (e : pyexception) :
  PdfReader file_bytes = Return reader ->
  pages_len reader = Return n ->
  k < n ->
  (forall i, i < k -> exists t, page_reads reader i t) ->
  page_fails reader k e ->
  stdout_write (py "Error extracting text from PDF: " ++ exc_str e) = Return tt ->
  extract file_bytes w
  = (Raise (Exc ValueError
              (py "Failed to extract text from PDF file. Please try a text or JSON file if this persists.")),
     World (stdout w ++ [py "Error extracting text from PDF: " ++ exc_str e]) (ext w)).
Proof.
  intros Hopen Hlen Hk Hbefore Hfail P.
  unfold extract_text_from_pdf, try_except, extract_text_from_pdf_try.
  unfold bind at 1. unfold lift at 1. rewrite Hopen.
  unfold bind at 1. unfold lift at 1. rewrite Hlen.
  unfold bind at 1. unfold range.
  rewrite (for_each_page_fails reader e w k n 0 [] Hk Hbefore Hfail).
  rewrite PdfSpec.extract_except_run, P. reflexivity.
Qed.

(** X9. The extracted text is empty exactly when the document has no page:
    a page without any text still contributes its header. *)
Theorem extracted_text_empty_iff_no_page
    (file_bytes : list byte) (w : world unit)
    (reader : reader_t) (texts : list (option pystr)) :
  PdfReader file_bytes = Return reader ->
  pages_len reader = Return (length texts) ->
  (forall i t, nth_error texts i = Some t -> page_reads reader i t) ->
  (fst (extract file_bytes w) = Return [] <-> texts = []).
Proof.
  intros Hopen Hlen Hpages.
  rewrite (extract_run file_bytes w reader texts Hopen Hlen Hpages). cbn [fst].
  unfold pages_joined. split.
  - intros H. injection H as H. apply pages_joined_from_nil_iff in H.
    destruct texts; [ reflexivity | discriminate ].
  - intros ->. reflexivity.
Qed.

(** X10. Every page is in the extracted text: its header with its 1-based
    number, a line break, its text, two line breaks. *)
Theorem every_page_in_extracted_text
    (file_bytes : list byte) (w : world unit)
    (reader : reader_t) (texts : list (option pystr)) (i : nat) (t : option pystr) :
  PdfReader file_bytes = Return reader ->
  pages_len reader = Return (length texts) ->
  (forall j u, nth_error texts j = Some u -> page_reads reader j u) ->
  nth_error texts i = Some t ->
  exists out,
    fst (extract file_bytes w) = Return out
    /\ str_in (py "--- Page " ++ str_of_nat (i + 1) ++ py " ---" ++ NL
               ++ str_or t [] ++ NL ++ NL) out = true.
Proof.
  intros Hopen Hlen Hpages Hi.
  rewrite (extract_run file_bytes w reader texts Hopen Hlen Hpages). cbn [fst].
  eexists. split; [ reflexivity | ].
  assert (Hi' : nth_error (map (fun t => str_or t []) texts) i = Some (str_or t [])).
  { rewrite nth_error_map, Hi. reflexivity. }
  destruct (pages_joined_from_split _ 1 i _ Hi') as (before & rest & E).
  unfold pages_joined. rewrite E.
  replace (1 + i) with (i + 1) by apply Nat.add_comm.
  replace (py "--- Page " ++ str_of_nat (i + 1) ++ py " ---" ++ NL
           ++ str_or t [] ++ NL ++ NL)
    with (page_header (i + 1) ++ NL ++ str_or t [] ++ NL ++ NL)
    by (unfold page_header; rewrite <- !app_assoc; reflexivity).
  exact (str_in_app before _ rest).
Qed.

End WithPypdf.

Lemma three_pages_read (j : nat) (u : option pystr) :
  nth_error [ Some (py "Hello"); None; Some (py "World") ] j = Some u ->
  PdfContract.page_reads Mock.pages_getitem Mock.extract_text MockPages.three_pages_middle_blank j u.
Proof.
  intros H. destruct j as [ | [ | [ | j]]]; cbn in H.
  - injection H as <-. eexists. split; reflexivity.
  - injection H as <-. eexists. split; reflexivity.
  - injection H as <-. eexists. split; reflexivity.
  - destruct j; discriminate.
Defined.

Lemma one_bad_page_fails_extraction_witness :
  Mock.extract_text_from_pdf (Mock.pdf_magic ++ [x21]) Mock.blank
  = (Raise (Exc ValueError
              (py "Failed to extract text from PDF file. Please try a text or JSON file if this persists.")),
     World (stdout Mock.blank
            ++ [py "Error extracting text from PDF: "
                ++ exc_str (Exc (OtherException (py "PdfStreamError"))
                                (py "Stream has ended unexpectedly"))])
           (ext Mock.blank)).
Proof.
  apply (one_bad_page_fails_extraction Mock.stdout_write _ _
           Mock.PdfReader Mock.pages_len Mock.pages_getitem Mock.extract_text
           (Mock.pdf_magic ++ [x21]) Mock.blank MockPages.two_pages_second_unreadable 2 1
           (Exc (OtherException (py "PdfStreamError")) (py "Stream has ended unexpectedly"))).
  - reflexivity.
  - reflexivity.
  - apply Nat.lt_succ_diag_r.
  - intros i Hi. destruct i as [ | i].
    + exists (Some (py "Hello")). eexists. split; reflexivity.
    + apply Nat.succ_lt_mono in Hi. inversion Hi.
  - right. eexists. split; reflexivity.
  - reflexivity.
Defined.

Lemma extracted_text_empty_iff_no_page_witness :
  fst (Mock.extract_text_from_pdf Mock.pdf_magic Mock.blank) = Return []
  <-> [ Some (py "Hello"); None; Some (py "World") ] = [].
Proof.
  apply (extracted_text_empty_iff_no_page Mock.stdout_write _ _
           Mock.PdfReader Mock.pages_len Mock.pages_getitem Mock.extract_text
           Mock.pdf_magic Mock.blank MockPages.three_pages_middle_blank
           [ Some (py "Hello"); None; Some (py "World") ]).
  - reflexivity.
  - reflexivity.
  - exact three_pages_read.
Defined.

(** The blank second page of the three-page document. *)
Lemma every_page_in_extracted_text_witness :
  exists out,
    fst (Mock.extract_text_from_pdf Mock.pdf_magic Mock.blank) = Return out
    /\ str_in (py "--- Page " ++ str_of_nat (1 + 1) ++ py " ---" ++ NL
               ++ str_or None [] ++ NL ++ NL) out = true.
Proof.
  apply (every_page_in_extracted_text Mock.stdout_write _ _
           Mock.PdfReader Mock.pages_len Mock.pages_getitem Mock.extract_text
           Mock.pdf_magic Mock.blank MockPages.three_pages_middle_blank
           [ Some (py "Hello"); None; Some (py "World") ] 1 None).
  - reflexivity.
  - reflexivity.
  - exact three_pages_read.
  - reflexivity.
Defined.

End PdfMore.

(** ** Properties of redact_api.py and of the client's key *)

Module ApiSpec.

Import redact_api.

Lemma opt_str_ne_false_iff (a : option pystr) (b : pystr) :
  opt_str_ne a b = false <-> a = Some b.
Proof.
  destruct a as [a | ]; cbn [opt_str_ne]; split; intros H; try discriminate.
  - apply negb_false_iff in H. rewrite (PyFacts.str_eqb_eq _ _ H). reflexivity.
  - injection H as ->. rewrite PyFacts.str_eqb_refl. reflexivity.
Qed.

(** X11. [upload_pdf] answers 400 "File must be a PDF" exactly when the
    declared content type is anything but the string "application/pdf":
    absent, differently cased, or followed by parameters. *)
Theorem upload_rejected_iff_type_differs (file : UploadFile) :
  upload_pdf file = HTTPException 400 (py "File must be a PDF")
  <-> content_type file <> Some (py "application/pdf").
Proof.
  unfold upload_pdf.
  destruct (opt_str_ne (content_type file) (py "application/pdf")) eqn:T.
  - split; [ | reflexivity ].
    intros _ E. apply opt_str_ne_false_iff in E. congruence.
  - apply opt_str_ne_false_iff in T. split.
    + destruct (read file); discriminate.
    + intros H. contradiction.
Qed.

(** X12. Of an accepted upload only the file name and the number of bytes
    reach the response: the bytes themselves are not looked at, so a
    payload that is no PDF is accepted like any other. *)
Theorem upload_response_ignores_bytes (f1 f2 : UploadFile) (c1 c2 : list byte) :
  content_type f1 = Some (py "application/pdf") ->
  content_type f2 = Some (py "application/pdf") ->
  filename f1 = filename f2 ->
  read f1 = Return c1 ->
  read f2 = Return c2 ->
  length c1 = length c2 ->
  upload_pdf f1 = upload_pdf f2
  /\ upload_pdf f1
     = Returns (PyDict [ (py "filename", opt_str_value (filename f1));
                         (py "size", PyInt (Z.of_nat (length c1))) ]).
Proof.
  intros T1 T2 Hname R1 R2 Hlen.
  apply opt_str_ne_false_iff in T1. apply opt_str_ne_false_iff in T2.
  unfold upload_pdf. rewrite T1, T2, R1, R2, Hname, Hlen. split; reflexivity.
Qed.

Lemma upload_response_ignores_bytes_witness :
  upload_pdf {| filename := Some (py "notes.pdf");
                content_type := Some (py "application/pdf");
                read := Return Mock.pdf_magic |}
  = upload_pdf {| filename := Some (py "notes.pdf");
                  content_type := Some (py "application/pdf");
                  read := Return [x4a; x6f; x68; x6e] |}
  /\ upload_pdf {| filename := Some (py "notes.pdf");
                   content_type := Some (py "application/pdf");
                   read := Return Mock.pdf_magic |}
     = Returns (PyDict [ (py "filename", opt_str_value (Some (py "notes.pdf")));
                         (py "size", PyInt (Z.of_nat (length Mock.pdf_magic))) ]).
Proof.
  apply (upload_response_ignores_bytes
           {| filename := Some (py "notes.pdf");
              content_type := Some (py "application/pdf");
              read := Return Mock.pdf_magic |}
           {| filename := Some (py "notes.pdf");
              content_type := Some (py "application/pdf");
              read := Return [x4a; x6f; x68; x6e] |}
           Mock.pdf_magic [x4a; x6f; x68; x6e]); reflexivity.
Defined.

(** *** Runs on concrete inputs *)

Example upload_wrong_case_rejected :
  upload_pdf {| filename := Some (py "notes.pdf");
                content_type := Some (py "application/PDF");
                read := Return Mock.pdf_magic |}
  = HTTPException 400 (py "File must be a PDF").
Proof. reflexivity. Qed.

Example upload_type_with_parameter_rejected :
  upload_pdf {| filename := Some (py "notes.pdf");
                content_type := Some (py "application/pdf; charset=binary");
                read := Return Mock.pdf_magic |}
  = HTTPException 400 (py "File must be a PDF").
Proof. reflexivity. Qed.

(** *** The client's key *)

Import geminiClient.

(** X13. The client is built without a key exactly when [GOOGLE_API_KEY] is
    unset or empty and [API_KEY] is unset; it is built with an empty key
    exactly when [GOOGLE_API_KEY] is unset or empty and [API_KEY] is set
    to the empty string.  An empty [GOOGLE_API_KEY] never is the key. *)
Theorem api_key_missing_or_empty (getenv : pystr -> option pystr) :
  (api_key getenv = None
   <-> (getenv (py "GOOGLE_API_KEY") = None \/ getenv (py "GOOGLE_API_KEY") = Some [])
       /\ getenv (py "API_KEY") = None)
  /\ (api_key getenv = Some []
      <-> (getenv (py "GOOGLE_API_KEY") = None \/ getenv (py "GOOGLE_API_KEY") = Some [])
          /\ getenv (py "API_KEY") = Some []).
Proof.
  unfold api_key, opt_or.
  destruct (getenv (py "GOOGLE_API_KEY")) as [[ | c k] | ];
    destruct (getenv (py "API_KEY")) as [[ | c' k'] | ];
    (split; (split; [ intros H; try discriminate; auto
                    | intros [[H | H] H']; try discriminate; try reflexivity ])).
Qed.

End ApiSpec.
